(** * examples/pipelines/rag/sql_db_assistant_pipeline.py

    A shallow embedding of the [Pipeline] class of the Azure OpenAI
    text-to-SQL pipeline, and the properties of its [pipe] operation and of
    its constructor.

    Python values are modelled as the interpreter has them: a [str] is a
    sequence of Unicode code points, a [dict] is a finite map, a [list] is
    a list.  Statements are translated one by one into a small state and
    exception monad whose state holds the [Pipeline] object, what was
    printed, and the HTTP requests that left the process. *)

From Stdlib Require Import ZArith NArith List String Ascii DecimalString Lia.
From stdpp Require Import base option list gmap.

Import ListNotations.
Local Open Scope Z_scope.

(** ** Python strings *)

Module PyStr.

(** A Python [str]: a sequence of code points. *)
Definition t := list N.

(** A literal made of ASCII characters only. *)
Definition lit (s : string) : t :=
  map N_of_ascii (list_ascii_of_string s).
Arguments lit s%_string.

(** [str(n)] for an [int]: decimal digits, with a sign when negative. *)
Definition of_int (n : Z) : t :=
  lit (NilZero.string_of_int (Z.to_int n)).

(** [ch.isspace()], the characters [str.strip()] removes: the code points
    CPython lists in [_PyUnicode_IsWhitespace]. *)
Definition isspace (c : N) : bool :=
  ((0x09 <=? c) && (c <=? 0x0D) ||
   (0x1C <=? c) && (c <=? 0x20) ||
   (c =? 0x85) || (c =? 0xA0) || (c =? 0x1680) ||
   (0x2000 <=? c) && (c <=? 0x200A) ||
   (c =? 0x2028) || (c =? 0x2029) || (c =? 0x202F) ||
   (c =? 0x205F) || (c =? 0x3000))%N.

Fixpoint lstrip (s : t) : t :=
  match s with
  | c :: s' => if isspace c then lstrip s' else s
  | [] => []
  end.

Definition rstrip (s : t) : t := reverse (lstrip (reverse s)).

(** [s.strip()] *)
Definition strip (s : t) : t := rstrip (lstrip s).

(** [sub in s] *)
Definition contains (sub s : t) : Prop :=
  exists before after, s = before ++ sub ++ after.

(** [s.startswith(p)] *)
Definition startswith (p s : t) : Prop :=
  exists rest, s = p ++ rest.

End PyStr.

Abbreviation pystr := PyStr.t.

(** ** Python objects

    The values that travel through [pipe]: what [json.loads] produces and
    what the host passes as [messages] and [body]. *)

#[warnings="-register-all"]
Inductive pyobj : Type :=
| PyNone
| PyBool (b : bool)
| PyInt (n : Z)
| PyFloat (repr : pystr)
| PyStr (s : pystr)
| PyList (items : list pyobj)
| PyDict (entries : gmap pystr pyobj).

(** ** Exceptions *)

(** The subclasses of [requests.exceptions.RequestException] raised by
    [requests.post], [Response.raise_for_status] and [Response.json]. *)
Inductive request_exception : Type :=
| ConnectionError
| Timeout
| InvalidURL
| HTTPError
| JSONDecodeError.

(** The exceptions that can arise in [pipe].  A [RequestException] carries
    the text [str(e)] gives. *)
Inductive exn : Type :=
| RequestException (kind : request_exception) (msg : pystr)
| KeyError (key : pyobj)
| IndexError
| TypeError
| AttributeError.

(** ** The [requests] library, as far as [pipe] uses it *)

Module Requests.

(** The arguments of [requests.post(url=..., json=..., headers=...)]. *)
Record Request : Type := {
  url : pystr;
  json : pyobj;
  headers : gmap pystr pystr
}.

(** What came back.  [content] is what [json.loads] makes of the body:
    the decoder's complaint when the body is not JSON, the value
    otherwise. *)
Record Response : Type := {
  status_code : Z;
  reason : pystr;
  final_url : pystr;
  content : pystr + pyobj
}.

(** One call of [requests.post]: an exception of the library, or a
    response with whatever status the server chose. *)
Inductive http_outcome : Type :=
| Failed (kind : request_exception) (msg : pystr)
| Responded (r : Response).

End Requests.

Import Requests.

(** ** The class and the interpreter state *)

Record Valves : Type := {
  AZURE_OPENAI_API_KEY : pystr;
  AZURE_OPENAI_ENDPOINT : pystr;
  AZURE_OPENAI_API_VERSION : pystr;
  AZURE_OPENAI_MODEL : pystr;
  SQL_SERVER : pystr;
  SQL_DATABASE : pystr;
  SQL_USERNAME : pystr;
  SQL_PASSWORD : pystr;
  SQL_DRIVER : pystr
}.

(** The attributes of a [Pipeline] instance. *)
Record Pipeline : Type := {
  type : pystr;
  name : pystr;
  valves : Valves;
  pipelines : list pyobj;
  parameters : list pyobj
}.

(** What a call can change: the instance, the standard output (one entry
    per [print], holding the pieces of the printed text with the values
    not yet rendered), and the requests sent so far. *)
Record State : Type := {
  self : Pipeline;
  stdout : list (list pyobj);
  wire : list Request
}.

(** What a call can only read: the module's [__name__] and the remote
    side of [requests.post]. *)
Record Runtime : Type := {
  module_name : pystr;
  remote : Request -> http_outcome
}.

(** The declared return type of [pipe], [Union[str, Generator, Iterator]]. *)
Inductive pipe_result : Type :=
| ResStr (s : pystr)
| ResGenerator (yields : list pystr)
| ResIterator (items : list pystr).

(** ** Statements: state and exceptions *)

Inductive outcome (A : Type) : Type :=
| Returns (a : A)
| Raises (e : exn).
Arguments Returns {A} a.
Arguments Raises {A} e.

Definition Py (A : Type) : Type := State -> outcome A * State.

#[export] Instance Py_ret : MRet Py :=
  fun A (a : A) st => (Returns a, st).

#[export] Instance Py_bind : MBind Py :=
  fun A B (k : A -> Py B) (m : Py A) st =>
    match m st with
    | (Returns a, st') => k a st'
    | (Raises e, st') => (Raises e, st')
    end.

(** Expressions that read no state are evaluated in [outcome] alone. *)
#[export] Instance outcome_ret : MRet outcome :=
  fun A (a : A) => Returns a.

#[export] Instance outcome_bind : MBind outcome :=
  fun A B (k : A -> outcome B) (o : outcome A) =>
    match o with
    | Returns a => k a
    | Raises e => Raises e
    end.

(** An expression used as a statement step: its value or its exception,
    the state as it was. *)
Definition eval {A} (o : outcome A) : Py A := fun st => (o, st).

(** [try: body / except ...: return ... ] followed by the rest of the
    function.  A handler that matches returns from the function; a body
    that completes hands its value to [rest]; an exception no handler
    matches goes on to the caller. *)
Definition try_except {A B} (body : Py A)
    (handlers : exn -> option (Py B)) (rest : A -> Py B) : Py B :=
  fun st =>
    match body st with
    | (Returns a, st') => rest a st'
    | (Raises e, st') =>
        match handlers e with
        | Some h => h st'
        | None => (Raises e, st')
        end
    end.

(** [print(...)] *)
Definition print (pieces : list pyobj) : Py unit :=
  fun st =>
    (Returns tt,
     {| self := self st; stdout := stdout st ++ [pieces]; wire := wire st |}).

(** [self.valves.<field>] *)
Definition valve (field : Valves -> pystr) : Py pystr :=
  fun st => (Returns (field (valves (self st))), st).

(** [self.<attribute> = value] *)
Definition setattr (update : Pipeline -> Pipeline) : Py unit :=
  fun st =>
    (Returns tt,
     {| self := update (self st); stdout := stdout st; wire := wire st |}).

(** [self.<attribute>] *)
Definition getattr {A} (field : Pipeline -> A) : Py A :=
  fun st => (Returns (field (self st)), st).

(** ** Operations on objects *)

(** [seq[i]] on a sequence: a negative index counts from the end, an index
    out of range gives nothing. *)
Definition index {A} (l : list A) (i : Z) : option A :=
  let n := Z.of_nat (length l) in
  let j := if i <? 0 then i + n else i in
  if (0 <=? j) && (j <? n) then l !! Z.to_nat j else None.

(** [obj[key]] with a [str] key.  Only a [dict] takes one; [list] and
    [str] want integers and the other objects take no subscript. *)
Definition getitem_str (obj : pyobj) (key : pystr) : outcome pyobj :=
  match obj with
  | PyDict d =>
      match d !! key with
      | Some v => Returns v
      | None => Raises (KeyError (PyStr key))
      end
  | _ => Raises TypeError
  end.

(** [obj[i]] with an [int] index.  The keys of a [dict] here are strings,
    so an integer is never among them. *)
Definition getitem_int (obj : pyobj) (i : Z) : outcome pyobj :=
  match obj with
  | PyDict _ => Raises (KeyError (PyInt i))
  | PyList l =>
      match index l i with
      | Some v => Returns v
      | None => Raises IndexError
      end
  | PyStr s =>
      match index s i with
      | Some c => Returns (PyStr [c])
      | None => Raises IndexError
      end
  | _ => Raises TypeError
  end.

(** [obj.strip()]: a method of [str] that no other object here has. *)
Definition method_strip (obj : pyobj) : outcome pystr :=
  match obj with
  | PyStr s => Returns (PyStr.strip s)
  | _ => Raises AttributeError
  end.

(** [os.getenv(key, default)] *)
Definition os_getenv (environ : gmap pystr pystr) (key default : pystr) : pystr :=
  match environ !! key with
  | Some v => v
  | None => default
  end.

(** ** [requests] calls *)

(** [requests.post(url=url, json=json, headers=headers)]: the request
    leaves, and the remote side decides what comes back. *)
Definition requests_post (rt : Runtime) (u : pystr) (j : pyobj)
    (h : gmap pystr pystr) : Py Response :=
  fun st =>
    let req := {| url := u; json := j; headers := h |} in
    let st' := {| self := self st; stdout := stdout st;
                  wire := wire st ++ [req] |} in
    match remote rt req with
    | Failed kind msg => (Raises (RequestException kind msg), st')
    | Responded r => (Returns r, st')
    end.

(** [r.raise_for_status()]: an [HTTPError] for the statuses 400 to 599,
    nothing for any other. *)
Definition raise_for_status (r : Response) : outcome unit :=
  let describe (what : pystr) : pystr :=
    PyStr.of_int (status_code r) ++ what ++ reason r ++
    PyStr.lit " for url: " ++ final_url r in
  if (400 <=? status_code r) && (status_code r <? 500) then
    Raises (RequestException HTTPError (describe (PyStr.lit " Client Error: ")))
  else if (500 <=? status_code r) && (status_code r <? 600) then
    Raises (RequestException HTTPError (describe (PyStr.lit " Server Error: ")))
  else Returns tt.

(** [r.json()]: a body that does not decode raises the library's
    [JSONDecodeError], which is a [RequestException]. *)
Definition response_json (r : Response) : outcome pyobj :=
  match content r with
  | inl complaint => Raises (RequestException JSONDecodeError complaint)
  | inr v => Returns v
  end.

(** ** String constants of the source *)

(** U+274C, the cross mark that opens both error strings. *)
Definition cross_mark : N := 0x274C.
(** U+2705, the check mark of the debug lines. *)
Definition check_mark : N := 0x2705.

Definition api_request_failed : pystr :=
  cross_mark :: PyStr.lit " API Request Failed: ".

Definition missing_expected_fields : pystr :=
  cross_mark :: PyStr.lit " OpenAI API response missing expected fields".

Definition instruction_prefix : pystr :=
  PyStr.lit "Convert the following user request into a syntactically correct SQL query for PostgreSQL. "
  ++ PyStr.lit "Make sure the query is safe and uses best practices. If filtering by a date, use YYYY-MM-DD format. "
  ++ PyStr.lit "User Request: ".

(** A [dict] display [{k1: v1, k2: v2, ...}] with string keys: the entries
    are stored from left to right, a later one replacing an earlier one
    with the same key. *)
Definition dict_of {V} (entries : list (pystr * V)) : gmap pystr V :=
  foldl (fun m kv => <[kv.1 := kv.2]> m) ∅ entries.

Definition dict (entries : list (pystr * pyobj)) : pyobj :=
  PyDict (dict_of entries).

(** ** The methods of [Pipeline] *)

(** [Pipeline.set_pipelines] *)
Definition set_pipelines : Py unit :=
  setattr (fun p =>
    {| type := type p; name := name p; valves := valves p;
       pipelines :=
         [dict [(PyStr.lit "id", PyStr (PyStr.lit "azure-text-to-sql"));
                (PyStr.lit "name", PyStr (PyStr.lit "Azure OpenAI Text-to-SQL"))]];
       parameters := parameters p |});;
  let parameter (n : pystr) (secret : bool) : pyobj :=
    dict ([(PyStr.lit "name", PyStr n);
           (PyStr.lit "type", PyStr (PyStr.lit "string"))]
          ++ (if secret then [(PyStr.lit "secret", PyBool true)] else [])) in
  setattr (fun p =>
    {| type := type p; name := name p; valves := valves p;
       pipelines := pipelines p;
       parameters :=
         [parameter (PyStr.lit "AZURE_OPENAI_API_KEY") true;
          parameter (PyStr.lit "AZURE_OPENAI_ENDPOINT") false;
          parameter (PyStr.lit "AZURE_OPENAI_API_VERSION") false;
          parameter (PyStr.lit "AZURE_OPENAI_MODEL") false;
          parameter (PyStr.lit "SQL_SERVER") false;
          parameter (PyStr.lit "SQL_DATABASE") false;
          parameter (PyStr.lit "SQL_USERNAME") false;
          parameter (PyStr.lit "SQL_PASSWORD") true;
          parameter (PyStr.lit "SQL_DRIVER") false] |});;
  registered ← getattr pipelines;
  print [PyStr (check_mark :: PyStr.lit " DEBUG: Pipeline registered in Open Web UI: ");
         PyList registered].

(** [Pipeline.__init__], run in the process environment [environ]. *)
Definition __init__ (environ : gmap pystr pystr) : Py unit :=
  setattr (fun p =>
    {| type := PyStr.lit "manifold"; name := name p; valves := valves p;
       pipelines := pipelines p; parameters := parameters p |});;
  setattr (fun p =>
    {| type := type p; name := PyStr.lit "Azure OpenAI Text-to-SQL Pipeline";
       valves := valves p;
       pipelines := pipelines p; parameters := parameters p |});;
  let getenv := os_getenv environ in
  setattr (fun p =>
    {| type := type p; name := name p;
       valves :=
         {| AZURE_OPENAI_API_KEY :=
              getenv (PyStr.lit "AZURE_OPENAI_API_KEY") (PyStr.lit "your-azure-openai-api-key");
            AZURE_OPENAI_ENDPOINT :=
              getenv (PyStr.lit "AZURE_OPENAI_ENDPOINT") (PyStr.lit "your-azure-openai-endpoint");
            AZURE_OPENAI_API_VERSION :=
              getenv (PyStr.lit "AZURE_OPENAI_API_VERSION") (PyStr.lit "2024-02-01");
            AZURE_OPENAI_MODEL :=
              getenv (PyStr.lit "AZURE_OPENAI_MODEL") (PyStr.lit "gpt-4");
            SQL_SERVER := getenv (PyStr.lit "SQL_SERVER") (PyStr.lit "localhost");
            SQL_DATABASE := getenv (PyStr.lit "SQL_DATABASE") (PyStr.lit "testdb");
            SQL_USERNAME := getenv (PyStr.lit "SQL_USERNAME") (PyStr.lit "testuser");
            SQL_PASSWORD := getenv (PyStr.lit "SQL_PASSWORD") (PyStr.lit "testpassword");
            SQL_DRIVER := getenv (PyStr.lit "SQL_DRIVER") (PyStr.lit "PostgreSQL Driver") |};
       pipelines := pipelines p; parameters := parameters p |});;
  set_pipelines.

(** [Pipeline.pipe] *)
Definition pipe (rt : Runtime) (user_message model_id : pystr)
    (messages : list pyobj) (body : gmap pystr pyobj) : Py pipe_result :=
  print [PyStr (PyStr.lit "pipe:"); PyStr (module_name rt)];;
  print [PyList messages];;
  print [PyStr user_message];;
  api_key ← valve AZURE_OPENAI_API_KEY;
  let headers := dict_of [(PyStr.lit "api-key", api_key);
                          (PyStr.lit "Content-Type", PyStr.lit "application/json")] in
  endpoint ← valve AZURE_OPENAI_ENDPOINT;
  deployment ← valve AZURE_OPENAI_MODEL;
  version ← valve AZURE_OPENAI_API_VERSION;
  let url := endpoint ++ PyStr.lit "/openai/deployments/" ++ deployment
             ++ PyStr.lit "/chat/completions?api-version=" ++ version in
  let prompt := instruction_prefix ++ user_message in
  model ← valve AZURE_OPENAI_MODEL;
  let payload :=
    dict [(PyStr.lit "model", PyStr model);
          (PyStr.lit "messages",
           PyList [dict [(PyStr.lit "role", PyStr (PyStr.lit "user"));
                         (PyStr.lit "content", PyStr prompt)]])] in
  try_except
    (r ← requests_post rt url payload headers;
     eval (raise_for_status r);;
     decoded ← eval (response_json r);
     choices ← eval (getitem_str decoded (PyStr.lit "choices"));
     first ← eval (getitem_int choices 0);
     message ← eval (getitem_str first (PyStr.lit "message"));
     text ← eval (getitem_str message (PyStr.lit "content"));
     sql_query ← eval (method_strip text);
     print [PyStr (check_mark :: PyStr.lit " Generated SQL Query: "); PyStr sql_query];;
     mret sql_query)
    (fun e =>
       match e with
       | RequestException _ msg => Some (mret (ResStr (api_request_failed ++ msg)))
       | KeyError _ => Some (mret (ResStr missing_expected_fields))
       | _ => None
       end)
    (fun sql_query => mret (ResStr sql_query)).

(** [Pipeline.on_valves_updated], [Pipeline.on_startup] and
    [Pipeline.on_shutdown] are coroutines without an [await] of their own:
    each definition is the body the host runs when it awaits the call. *)
Definition on_valves_updated : Py unit :=
  print [PyStr (0x1F504%N :: PyStr.lit " DEBUG: Valves updated, re-registering pipelines in Open Web UI...")];;
  set_pipelines.

Definition on_startup (rt : Runtime) : Py unit :=
  print [PyStr (0x1F680%N :: PyStr.lit " on_startup: "); PyStr (module_name rt)].

Definition on_shutdown (rt : Runtime) : Py unit :=
  print [PyStr (0x1F6D1%N :: PyStr.lit " on_shutdown: "); PyStr (module_name rt)].

(** ** Vocabulary of the properties *)

(** The request the interface description asks for: the chat-completions
    URL of the deployment, the key in the [api-key] header, and a body of
    the model name and one message of role [user]. *)
Definition outbound_request (v : Valves) (prompt : pystr) : Request :=
  {| url := AZURE_OPENAI_ENDPOINT v ++ PyStr.lit "/openai/deployments/"
            ++ AZURE_OPENAI_MODEL v
            ++ PyStr.lit "/chat/completions?api-version="
            ++ AZURE_OPENAI_API_VERSION v;
     json :=
       PyDict
         (<[PyStr.lit "messages" :=
              PyList [PyDict (<[PyStr.lit "content" := PyStr prompt]>
                              {[PyStr.lit "role" := PyStr (PyStr.lit "user")]})]]>
          {[PyStr.lit "model" := PyStr (AZURE_OPENAI_MODEL v)]});
     headers :=
       <[PyStr.lit "api-key" := AZURE_OPENAI_API_KEY v]>
       {[PyStr.lit "Content-Type" := PyStr.lit "application/json"]} |}.

(** The request of a call of [pipe] with [user_message] in state [st]. *)
Definition request_of (st : State) (user_message : pystr) : Request :=
  outbound_request (valves (self st)) (instruction_prefix ++ user_message).

(** A response body of the expected shape,
    [{"choices": [{"message": {"content": s}}]}], first with any object
    as the content, then with a string. *)
Definition chat_completion_of (text : pyobj) : pyobj :=
  PyDict {[PyStr.lit "choices" :=
    PyList [PyDict {[PyStr.lit "message" :=
      PyDict {[PyStr.lit "content" := text]}]}]]}.

Definition chat_completion (s : pystr) : pyobj :=
  chat_completion_of (PyStr s).

(** [decoded["choices"][0]["message"]["content"]] *)
Definition first_choice_content (decoded : pyobj) : outcome pyobj :=
  choices ← getitem_str decoded (PyStr.lit "choices");
  first ← getitem_int choices 0;
  message ← getitem_str first (PyStr.lit "message");
  getitem_str message (PyStr.lit "content").

(** What the body of the [try] block evaluates to, given what
    [requests.post] did. *)
Definition attempted (o : http_outcome) : outcome pystr :=
  match o with
  | Failed kind msg => Raises (RequestException kind msg)
  | Responded r =>
      raise_for_status r;;
      decoded ← response_json r;
      text ← first_choice_content decoded;
      method_strip text
  end.

(** What the [except] clauses and the final [return] make of it. *)
Definition concluded (o : outcome pystr) : outcome pipe_result :=
  match o with
  | Returns sql_query => Returns (ResStr sql_query)
  | Raises (RequestException _ msg) => Returns (ResStr (api_request_failed ++ msg))
  | Raises (KeyError _) => Returns (ResStr missing_expected_fields)
  | Raises e => Raises e
  end.

(** The call went wrong on the way: [requests.post] raised, or the server
    answered with an error status, 400 to 599. *)
Inductive request_failed : http_outcome -> Prop :=
| transport_error kind msg : request_failed (Failed kind msg)
| error_status r :
    400 <= status_code r < 600 -> request_failed (Responded r).

(** A decoded body that is an object but lacks one of the expected
    fields: no ["choices"], or a first choice that is an object without
    ["message"], or a message that is an object without ["content"]. *)
Inductive lacks_expected_field : pyobj -> Prop :=
| no_choices d :
    d !! PyStr.lit "choices" = None ->
    lacks_expected_field (PyDict d)
| no_message d first rest :
    d !! PyStr.lit "choices" = Some (PyList (PyDict first :: rest)) ->
    first !! PyStr.lit "message" = None ->
    lacks_expected_field (PyDict d)
| no_content d first rest message :
    d !! PyStr.lit "choices" = Some (PyList (PyDict first :: rest)) ->
    first !! PyStr.lit "message" = Some (PyDict message) ->
    message !! PyStr.lit "content" = None ->
    lacks_expected_field (PyDict d).

(** [t] is [s] without its leading and trailing whitespace. *)
Definition stripped_of (s t : pystr) : Prop :=
  (exists l r, s = l ++ t ++ r
               /\ Forall (fun c => PyStr.isspace c = true) l
               /\ Forall (fun c => PyStr.isspace c = true) r)
  /\ (forall c, head t = Some c -> PyStr.isspace c = false)
  /\ (forall c, last t = Some c -> PyStr.isspace c = false).

(** The names the instance announces to the host: the ["name"] of each
    entry of [self.parameters]. *)
Definition announced_names (p : Pipeline) : list pystr :=
  omap (fun entry =>
          match getitem_str entry (PyStr.lit "name") with
          | Returns (PyStr n) => Some n
          | _ => None
          end)
       (parameters p).


(** A computation that leaves the instance alone. *)
Definition keeps_self {A} (m : Py A) : Prop :=
  forall st, self (m st).2 = self st.

(** Sample data: valves, an instance, a state, and a remote side that
    answers every request the same way. *)
Definition sample_valves : Valves :=
  {| AZURE_OPENAI_API_KEY := PyStr.lit "secret";
     AZURE_OPENAI_ENDPOINT := PyStr.lit "https://example.openai.azure.com";
     AZURE_OPENAI_API_VERSION := PyStr.lit "2024-02-01";
     AZURE_OPENAI_MODEL := PyStr.lit "gpt-4";
     SQL_SERVER := PyStr.lit "localhost";
     SQL_DATABASE := PyStr.lit "testdb";
     SQL_USERNAME := PyStr.lit "testuser";
     SQL_PASSWORD := PyStr.lit "testpassword";
     SQL_DRIVER := PyStr.lit "PostgreSQL Driver" |}.

Definition sample_state : State :=
  {| self := {| type := PyStr.lit "manifold";
                name := PyStr.lit "Azure OpenAI Text-to-SQL Pipeline";
                valves := sample_valves;
                pipelines := []; parameters := [] |};
     stdout := []; wire := [] |}.

Definition answering (o : http_outcome) : Runtime :=
  {| module_name := PyStr.lit "__main__"; remote := fun _ => o |}.

Definition response (status : Z) (phrase : string) (body : pyobj) : Response :=
  {| status_code := status; reason := PyStr.lit phrase;
     final_url := url (request_of sample_state []); content := inr body |}.

Definition sample_message : pystr :=
  PyStr.lit "List all employees whose name starts with 'M'".

(** * Properties *)

(** ** [str.strip] *)

Section Strip.

Let space (c : N) : Prop := PyStr.isspace c = true.

Lemma lstrip_split (s : pystr) :
  exists l, s = l ++ PyStr.lstrip s /\ Forall space l.
Proof.
  induction s as [|c s [l [Hs Hl]]]; cbn.
  - exists []. split; [reflexivity | constructor].
  - destruct (PyStr.isspace c) eqn:Hc.
    + exists (c :: l). split; [cbn; congruence | constructor; assumption].
    + exists []. split; [reflexivity | constructor].
Qed.

Lemma lstrip_head (s : pystr) (c : N) :
  head (PyStr.lstrip s) = Some c -> PyStr.isspace c = false.
Proof.
  induction s as [|a s IH]; cbn; [discriminate|].
  destruct (PyStr.isspace a) eqn:Ha; [exact IH|].
  cbn. intros [= <-]. exact Ha.
Qed.

Lemma rstrip_split (s : pystr) :
  exists r, s = PyStr.rstrip s ++ r /\ Forall space r.
Proof.
  unfold PyStr.rstrip.
  destruct (lstrip_split (reverse s)) as [l [Hs Hl]].
  exists (reverse l). split.
  - rewrite <- reverse_app, <- Hs. symmetry. apply reverse_involutive.
  - apply Forall_reverse. exact Hl.
Qed.

Lemma rstrip_last (s : pystr) (c : N) :
  last (PyStr.rstrip s) = Some c -> PyStr.isspace c = false.
Proof.
  unfold PyStr.rstrip. rewrite last_reverse. apply lstrip_head.
Qed.

Lemma rstrip_head (s : pystr) (c : N) :
  head (PyStr.rstrip s) = Some c -> head s = Some c.
Proof.
  destruct (rstrip_split s) as [r [Hs _]]. intros H.
  rewrite Hs. destruct (PyStr.rstrip s); [discriminate | exact H].
Qed.

Lemma strip_stripped (s : pystr) : stripped_of s (PyStr.strip s).
Proof.
  unfold stripped_of, PyStr.strip. split; [|split].
  - destruct (lstrip_split s) as [l [Hl Fl]].
    destruct (rstrip_split (PyStr.lstrip s)) as [r [Hr Fr]].
    exists l, r. split; [congruence | split; assumption].
  - intros c H. apply (lstrip_head s), rstrip_head, H.
  - apply rstrip_last.
Qed.

End Strip.

(** ** Running [pipe] *)

(** The request [pipe] assembles, field by field as the source writes it,
    is the one described by [outbound_request]. *)
Lemma assembled_request (v : Valves) (user_message : pystr) :
  {| url := AZURE_OPENAI_ENDPOINT v ++ PyStr.lit "/openai/deployments/"
            ++ AZURE_OPENAI_MODEL v
            ++ PyStr.lit "/chat/completions?api-version="
            ++ AZURE_OPENAI_API_VERSION v;
     json :=
       dict [(PyStr.lit "model", PyStr (AZURE_OPENAI_MODEL v));
             (PyStr.lit "messages",
              PyList [dict [(PyStr.lit "role", PyStr (PyStr.lit "user"));
                            (PyStr.lit "content",
                             PyStr (instruction_prefix ++ user_message))]])];
     headers :=
       dict_of [(PyStr.lit "api-key", AZURE_OPENAI_API_KEY v);
                (PyStr.lit "Content-Type", PyStr.lit "application/json")] |}
  = outbound_request v (instruction_prefix ++ user_message).
Proof.
  unfold outbound_request, dict, dict_of. cbn [foldl fst snd].
  reflexivity.
Qed.

Ltac unfold_statements :=
  unfold pipe, try_except, requests_post, print, valve, eval,
    mbind, mret, Py_bind, Py_ret;
  cbn [self stdout wire valves fst snd].

Ltac outcome_cases :=
  repeat match goal with
  | |- context [match ?o with Returns _ => _ | Raises _ => _ end] =>
      let e := fresh "e" in
      destruct o as [?|e]; [|try (destruct e; reflexivity)]
  end.

(** The value of a call is decided by what [requests.post] did with the
    assembled request. *)
Lemma pipe_value rt user_message model_id messages body st :
  (pipe rt user_message model_id messages body st).1
  = concluded (attempted (remote rt (request_of st user_message))).
Proof.
  unfold_statements. rewrite assembled_request.
  fold (request_of st user_message).
  destruct (remote rt (request_of st user_message)) as [kind msg|r];
    [reflexivity|].
  unfold attempted, first_choice_content, mbind, outcome_bind.
  outcome_cases. reflexivity.
Qed.

(** Every call sends that request, and no other. *)
Lemma pipe_wire rt user_message model_id messages body st :
  wire (pipe rt user_message model_id messages body st).2
  = wire st ++ [request_of st user_message].
Proof.
  unfold_statements. rewrite assembled_request.
  fold (request_of st user_message).
  destruct (remote rt (request_of st user_message)) as [kind msg|r];
    [reflexivity|].
  outcome_cases. reflexivity.
Qed.

Lemma index_first {A} (x : A) (rest : list A) : index (x :: rest) 0 = Some x.
Proof.
  unfold index. cbn [Z.ltb Z.leb Z.compare length andb].
  destruct (Z.ltb_spec 0 (Z.of_nat (S (length rest)))); [reflexivity | lia].
Qed.

(** ** The instance is left alone *)

Section Frame.

Context {A B : Type}.

Lemma keeps_self_ret (a : A) : keeps_self (mret a).
Proof. intros st. reflexivity. Qed.

Lemma keeps_self_eval (o : outcome A) : keeps_self (eval o).
Proof. intros st. reflexivity. Qed.

Lemma keeps_self_bind (m : Py A) (k : A -> Py B) :
  keeps_self m -> (forall a, keeps_self (k a)) -> keeps_self (m ≫= k).
Proof.
  intros Hm Hk st. unfold mbind, Py_bind.
  specialize (Hm st). destruct (m st) as [[a|e] st']; cbn in *.
  - rewrite Hk. exact Hm.
  - exact Hm.
Qed.

Lemma keeps_self_try (m : Py A) (handlers : exn -> option (Py B))
    (rest : A -> Py B) :
  keeps_self m ->
  (forall e h, handlers e = Some h -> keeps_self h) ->
  (forall a, keeps_self (rest a)) ->
  keeps_self (try_except m handlers rest).
Proof.
  intros Hm Hh Hr st. unfold try_except.
  specialize (Hm st). destruct (m st) as [[a|e] st']; cbn in *.
  - rewrite Hr. exact Hm.
  - destruct (handlers e) as [h|] eqn:He; cbn.
    + rewrite (Hh e h He). exact Hm.
    + exact Hm.
Qed.

End Frame.

Lemma keeps_self_print (pieces : list pyobj) : keeps_self (print pieces).
Proof. intros st. reflexivity. Qed.

Lemma keeps_self_valve (field : Valves -> pystr) : keeps_self (valve field).
Proof. intros st. reflexivity. Qed.

Lemma keeps_self_post rt u j h : keeps_self (requests_post rt u j h).
Proof.
  intros st. unfold requests_post. destruct (remote rt _); reflexivity.
Qed.

Create HintDb frame.
#[export] Hint Resolve keeps_self_ret keeps_self_eval keeps_self_print
  keeps_self_valve keeps_self_post : frame.

Ltac frame :=
  repeat first
    [ apply keeps_self_bind; [|intros ?]
    | apply keeps_self_try; [| |intros ?]
    | solve [auto with frame] ].

(** ** The constructor *)

Lemma os_getenv_set environ key default v :
  environ !! key = Some v -> os_getenv environ key default = v.
Proof. intros H. unfold os_getenv. rewrite H. reflexivity. Qed.

Lemma os_getenv_unset environ key default :
  environ !! key = None -> os_getenv environ key default = default.
Proof. intros H. unfold os_getenv. rewrite H. reflexivity. Qed.

(** What the two kinds of recognised failure do to the [try] block. *)
Lemma request_failed_raises (o : http_outcome) :
  request_failed o ->
  exists kind description,
    attempted o = Raises (RequestException kind description)
    /\ match o with
       | Failed _ msg => description = msg
       | Responded r =>
           PyStr.startswith (PyStr.of_int (status_code r)) description
           /\ PyStr.contains (reason r) description
       end.
Proof.
  intros [kind msg|r Hstatus].
  - exists kind, msg. split; reflexivity.
  - unfold attempted, raise_for_status.
    destruct ((400 <=? status_code r) && (status_code r <? 500)) eqn:H4.
    + eexists _, _. split; [reflexivity|]. split.
      * eexists. reflexivity.
      * eexists _, _. rewrite <- app_assoc. reflexivity.
    + replace ((500 <=? status_code r) && (status_code r <? 600)) with true
        by lia.
      eexists _, _. split; [reflexivity|]. split.
      * eexists. reflexivity.
      * eexists _, _. rewrite <- app_assoc. reflexivity.
Qed.

Lemma lacks_expected_field_raises (decoded : pyobj) :
  lacks_expected_field decoded ->
  exists key,
    (text ← first_choice_content decoded; method_strip text)
    = Raises (KeyError key).
Proof.
  unfold first_choice_content, mbind, outcome_bind, getitem_str at 1.
  intros [d Hd|d first rest Hd Hf|d first rest message Hd Hf Hm];
    rewrite Hd.
  - eexists. reflexivity.
  - unfold getitem_int. rewrite index_first. unfold getitem_str.
    rewrite Hf. eexists. reflexivity.
  - unfold getitem_int. rewrite index_first. unfold getitem_str at 1.
    rewrite Hf. unfold getitem_str. rewrite Hm. eexists. reflexivity.
Qed.

(** The exceptions the [except] clauses do not cover.  A 200 response
    whose body is [{"choices": []}] has no first choice: [choices[0]]
    raises [IndexError] and the call ends in it.  Likewise
    [AttributeError] when ["content"] is [null], and [TypeError] when the
    body is a JSON array. *)
Lemma pipe_raises_on_empty_choices :
  let run body :=
    (pipe (answering (Responded (response 200 "OK" body))) sample_message
       (PyStr.lit "azure-text-to-sql") [] ∅ sample_state).1 in
  run (PyDict {[PyStr.lit "choices" := PyList []]}) = Raises IndexError
  /\ run (chat_completion_of PyNone) = Raises AttributeError
  /\ run (PyList []) = Raises TypeError.
Proof. cbv zeta. repeat split; vm_compute; reflexivity. Qed.

(** * The claims *)

(** C1 (amended): when [requests.post] raises, or the response has a
    status from 400 to 599, or the decoded body is an object that lacks
    ["choices"], or a first choice that lacks ["message"], or a message
    that lacks ["content"], [pipe] returns one of its two error strings
    and no exception reaches the caller. *)
Theorem pipe_reports_recognised_failures
    rt user_message model_id messages body st :
  request_failed (remote rt (request_of st user_message))
  \/ (exists r decoded,
        remote rt (request_of st user_message) = Responded r
        /\ content r = inr decoded
        /\ lacks_expected_field decoded) ->
  exists s,
    (pipe rt user_message model_id messages body st).1 = Returns (ResStr s)
    /\ (PyStr.startswith api_request_failed s
        \/ s = missing_expected_fields).
Proof.
  rewrite pipe_value. intros [Hfail|[r [decoded [Hr [Hc Hlack]]]]].
  - destruct (request_failed_raises _ Hfail) as [kind [d [-> _]]].
    eexists. split; [reflexivity|]. left. eexists. reflexivity.
  - rewrite Hr. unfold attempted, response_json. rewrite Hc.
    unfold mbind at 1, outcome_bind at 1.
    destruct (raise_for_status r) as [[]|e] eqn:Hstatus.
    + unfold mbind at 1, outcome_bind at 1.
      destruct (lacks_expected_field_raises _ Hlack) as [key ->].
      eexists. split; [reflexivity|]. right. reflexivity.
    + unfold raise_for_status in Hstatus.
      repeat destruct (_ && _) in Hstatus; try discriminate Hstatus;
        injection Hstatus as <-;
        (eexists; split; [reflexivity|]; left; eexists; reflexivity).
Qed.

Lemma pipe_reports_recognised_failures_witness :
  let rt := answering (Failed ConnectionError
                         (PyStr.lit "Connection refused")) in
  request_failed (remote rt (request_of sample_state sample_message))
  /\ exists s,
       (pipe rt sample_message (PyStr.lit "azure-text-to-sql") [] ∅
          sample_state).1 = Returns (ResStr s)
       /\ (PyStr.startswith api_request_failed s
           \/ s = missing_expected_fields).
Proof.
  intros rt.
  assert (H : request_failed
                (remote rt (request_of sample_state sample_message)))
    by apply transport_error.
  split; [exact H|].
  exact (pipe_reports_recognised_failures rt sample_message
           (PyStr.lit "azure-text-to-sql") [] ∅ sample_state (or_introl H)).
Defined.

(** C1 as stated fails: a response with the status 302, which is not a
    2xx status, and a well-formed body makes [pipe] return the completion
    text, which is neither of the error strings. *)
Lemma status_302_returns_no_error_string :
  let r := response 302 "Found" (chat_completion (PyStr.lit "SELECT 1;")) in
  let rt := answering (Responded r) in
  (status_code r <? 200) || (299 <? status_code r) = true
  /\ remote rt (request_of sample_state sample_message) = Responded r
  /\ (pipe rt sample_message (PyStr.lit "azure-text-to-sql") [] ∅
        sample_state).1
     = Returns (ResStr (PyStr.lit "SELECT 1;"))
  /\ ~ PyStr.startswith api_request_failed (PyStr.lit "SELECT 1;")
  /\ PyStr.lit "SELECT 1;" <> missing_expected_fields.
Proof.
  cbv zeta. split; [reflexivity|]. split; [reflexivity|].
  split; [vm_compute; reflexivity|]. split; [|discriminate].
  intros [rest H]. discriminate H.
Qed.

(** C2: on a 2xx response whose body is
    [{"choices": [{"message": {"content": s}}]}], [pipe] returns [s]
    without its leading and trailing whitespace; for the content
    ["SELECT 1;"] the value is exactly ["SELECT 1;"]. *)
Theorem pipe_returns_stripped_completion
    rt user_message model_id messages body st r s :
  remote rt (request_of st user_message) = Responded r ->
  200 <= status_code r <= 299 ->
  content r = inr (chat_completion s) ->
  (pipe rt user_message model_id messages body st).1
    = Returns (ResStr (PyStr.strip s))
  /\ stripped_of s (PyStr.strip s)
  /\ (s = PyStr.lit "SELECT 1;" ->
      (pipe rt user_message model_id messages body st).1
        = Returns (ResStr (PyStr.lit "SELECT 1;"))).
Proof.
  intros Hr Hs Hc.
  assert (Hrun : (pipe rt user_message model_id messages body st).1
                 = Returns (ResStr (PyStr.strip s))).
  { rewrite pipe_value, Hr. unfold attempted, raise_for_status, response_json.
    rewrite Hc.
    replace ((400 <=? status_code r) && (status_code r <? 500)) with false
      by lia.
    replace ((500 <=? status_code r) && (status_code r <? 600)) with false
      by lia.
    reflexivity. }
  split; [exact Hrun | split; [apply strip_stripped|]].
  intros ->. exact Hrun.
Qed.

Lemma pipe_returns_stripped_completion_witness :
  let s := PyStr.lit "  SELECT 1; " in
  let r := response 200 "OK" (chat_completion s) in
  let rt := answering (Responded r) in
  (remote rt (request_of sample_state sample_message) = Responded r
   /\ 200 <= status_code r <= 299
   /\ content r = inr (chat_completion s))
  /\ (pipe rt sample_message (PyStr.lit "azure-text-to-sql") [] ∅
        sample_state).1
     = Returns (ResStr (PyStr.lit "SELECT 1;")).
Proof.
  intros s r rt.
  assert (H1 : remote rt (request_of sample_state sample_message) = Responded r)
    by reflexivity.
  assert (H2 : 200 <= status_code r <= 299) by (cbn; lia).
  assert (H3 : content r = inr (chat_completion s)) by reflexivity.
  split; [auto|].
  exact (proj1 (pipe_returns_stripped_completion rt sample_message
                  (PyStr.lit "azure-text-to-sql") [] ∅ sample_state r s
                  H1 H2 H3)).
Defined.

(** C3: for a non-empty [user_message], the ["content"] of the single
    chat message in the request body is the fixed instruction prefix
    followed by [user_message], so it contains [user_message] verbatim. *)
Theorem pipe_prompt_contains_user_message
    rt user_message model_id messages body st :
  user_message <> [] ->
  exists req prompt,
    wire (pipe rt user_message model_id messages body st).2 = wire st ++ [req]
    /\ (sent ← getitem_str (json req) (PyStr.lit "messages");
        only ← getitem_int sent 0;
        getitem_str only (PyStr.lit "content")) = Returns (PyStr prompt)
    /\ prompt = instruction_prefix ++ user_message
    /\ PyStr.contains user_message prompt.
Proof.
  intros _.
  exists (request_of st user_message), (instruction_prefix ++ user_message).
  split; [apply pipe_wire|].
  split; [reflexivity|].
  split; [reflexivity|].
  exists instruction_prefix, []. rewrite app_nil_r. reflexivity.
Qed.

Lemma pipe_prompt_contains_user_message_witness :
  sample_message <> []
  /\ exists req prompt,
       wire (pipe (answering (Failed Timeout [])) sample_message
               (PyStr.lit "azure-text-to-sql") [] ∅ sample_state).2
         = wire sample_state ++ [req]
       /\ (sent ← getitem_str (json req) (PyStr.lit "messages");
           only ← getitem_int sent 0;
           getitem_str only (PyStr.lit "content")) = Returns (PyStr prompt)
       /\ prompt = instruction_prefix ++ sample_message
       /\ PyStr.contains sample_message prompt.
Proof.
  assert (H : sample_message <> []) by discriminate.
  split; [exact H|].
  exact (pipe_prompt_contains_user_message (answering (Failed Timeout []))
           sample_message (PyStr.lit "azure-text-to-sql") [] ∅ sample_state H).
Defined.

(** C4: every call sends one request: its URL is
    [{endpoint}/openai/deployments/{model}/chat/completions?api-version={version}]
    with the three parts read from the valves, its [api-key] header is
    the configured key, and its JSON body is
    [{"model": model, "messages": [{"role": "user", "content": prompt}]}],
    one message, of role [user]. *)
Theorem pipe_request_shape rt user_message model_id messages body st :
  let v := valves (self st) in
  exists req,
    wire (pipe rt user_message model_id messages body st).2 = wire st ++ [req]
    /\ url req
       = AZURE_OPENAI_ENDPOINT v ++ PyStr.lit "/openai/deployments/"
         ++ AZURE_OPENAI_MODEL v
         ++ PyStr.lit "/chat/completions?api-version="
         ++ AZURE_OPENAI_API_VERSION v
    /\ headers req !! PyStr.lit "api-key" = Some (AZURE_OPENAI_API_KEY v)
    /\ json req
       = PyDict {[
           PyStr.lit "model" := PyStr (AZURE_OPENAI_MODEL v);
           PyStr.lit "messages" :=
             PyList [PyDict {[
               PyStr.lit "role" := PyStr (PyStr.lit "user");
               PyStr.lit "content" :=
                 PyStr (instruction_prefix ++ user_message) ]}] ]}.
Proof.
  intros v. exists (request_of st user_message).
  split; [apply pipe_wire|].
  split; [reflexivity|].
  split; [apply lookup_insert_eq|].
  unfold request_of, outbound_request. cbn [json]. reflexivity.
Qed.

(** C5 (amended): when [requests.post] raises, or the response has a
    status from 400 to 599, [pipe] returns the error marker
    followed by the description of the failure: the text of the exception,
    which for an error status starts with the status code and contains
    the reason phrase.  Nothing is raised. *)
Theorem pipe_reports_failed_request
    rt user_message model_id messages body st :
  request_failed (remote rt (request_of st user_message)) ->
  exists description,
    (pipe rt user_message model_id messages body st).1
      = Returns (ResStr (api_request_failed ++ description))
    /\ match remote rt (request_of st user_message) with
       | Failed _ msg => description = msg
       | Responded r =>
           PyStr.startswith (PyStr.of_int (status_code r)) description
           /\ PyStr.contains (reason r) description
       end.
Proof.
  intros Hfail. rewrite pipe_value.
  destruct (request_failed_raises _ Hfail) as [kind [d [Hd Hdescribed]]].
  exists d. rewrite Hd. split; [reflexivity | exact Hdescribed].
Qed.

Lemma pipe_reports_failed_request_witness :
  let r := response 500 "Internal Server Error" (PyDict ∅) in
  let rt := answering (Responded r) in
  request_failed (remote rt (request_of sample_state sample_message))
  /\ exists description,
       (pipe rt sample_message (PyStr.lit "azure-text-to-sql") [] ∅
          sample_state).1
         = Returns (ResStr (api_request_failed ++ description))
       /\ PyStr.startswith (PyStr.lit "500") description
       /\ PyStr.contains (PyStr.lit "Internal Server Error") description.
Proof.
  intros r rt.
  assert (H : request_failed
                (remote rt (request_of sample_state sample_message))).
  { apply error_status. cbn. lia. }
  split; [exact H|].
  exact (pipe_reports_failed_request rt sample_message
           (PyStr.lit "azure-text-to-sql") [] ∅ sample_state H).
Defined.

(** C5 as stated fails: a response with status 300, which is not a
    success status, and a well-formed body is not reported at all.
    [raise_for_status] lets it pass and [pipe] returns the completion
    text, which does not begin with the error marker. *)
Lemma status_300_is_not_reported :
  let r := response 300 "Multiple Choices"
             (chat_completion (PyStr.lit "SELECT 1;")) in
  let rt := answering (Responded r) in
  (status_code r <? 200) || (299 <? status_code r) = true
  /\ remote rt (request_of sample_state sample_message) = Responded r
  /\ (pipe rt sample_message (PyStr.lit "azure-text-to-sql") [] ∅
        sample_state).1
     = Returns (ResStr (PyStr.lit "SELECT 1;"))
  /\ ~ PyStr.startswith api_request_failed (PyStr.lit "SELECT 1;").
Proof.
  cbv zeta. split; [reflexivity|]. split; [reflexivity|].
  split; [vm_compute; reflexivity|].
  intros [rest H]. discriminate H.
Qed.

(** C6: on a response with status 200 whose decoded body is an object
    without ["choices"] (such as [{}]), or whose first choice is an object
    without ["message"], or whose message is an object without
    ["content"], [pipe] returns the fixed missing-fields string. *)
Theorem pipe_reports_missing_fields
    rt user_message model_id messages body st r decoded :
  remote rt (request_of st user_message) = Responded r ->
  status_code r = 200 ->
  content r = inr decoded ->
  lacks_expected_field decoded ->
  (pipe rt user_message model_id messages body st).1
    = Returns (ResStr missing_expected_fields).
Proof.
  intros Hr Hs Hc Hlack. rewrite pipe_value, Hr.
  unfold attempted, raise_for_status, response_json. rewrite Hs, Hc.
  cbn [Z.leb Z.ltb Z.compare Pos.compare Pos.compare_cont andb].
  unfold mbind at 1 2, outcome_bind at 1 2.
  destruct (lacks_expected_field_raises _ Hlack) as [key ->].
  reflexivity.
Qed.

Lemma pipe_reports_missing_fields_witness :
  let r := response 200 "OK" (PyDict ∅) in
  let rt := answering (Responded r) in
  (remote rt (request_of sample_state sample_message) = Responded r
   /\ status_code r = 200
   /\ content r = inr (PyDict ∅)
   /\ lacks_expected_field (PyDict ∅))
  /\ (pipe rt sample_message (PyStr.lit "azure-text-to-sql") [] ∅
        sample_state).1
     = Returns (ResStr missing_expected_fields).
Proof.
  intros r rt.
  assert (H1 : remote rt (request_of sample_state sample_message) = Responded r)
    by reflexivity.
  assert (H2 : status_code r = 200) by reflexivity.
  assert (H3 : content r = inr (PyDict ∅)) by reflexivity.
  assert (H4 : lacks_expected_field (PyDict ∅))
    by (apply no_choices; reflexivity).
  split; [auto|].
  exact (pipe_reports_missing_fields rt sample_message
           (PyStr.lit "azure-text-to-sql") [] ∅ sample_state r (PyDict ∅)
           H1 H2 H3 H4).
Defined.

(** C7: for each of the nine configuration names, [__init__] sets the
    valve of that name to the value of the environment variable when it
    is set, and to the hardcoded default when it is not. *)
Theorem init_resolves_each_valve environ st :
  let v := valves (self (__init__ environ st).2) in
  Forall
    (fun '(key, field, default) =>
       (forall value, environ !! PyStr.lit key = Some value -> field v = value)
       /\ (environ !! PyStr.lit key = None -> field v = PyStr.lit default))
    [("AZURE_OPENAI_API_KEY", AZURE_OPENAI_API_KEY, "your-azure-openai-api-key");
     ("AZURE_OPENAI_ENDPOINT", AZURE_OPENAI_ENDPOINT, "your-azure-openai-endpoint");
     ("AZURE_OPENAI_API_VERSION", AZURE_OPENAI_API_VERSION, "2024-02-01");
     ("AZURE_OPENAI_MODEL", AZURE_OPENAI_MODEL, "gpt-4");
     ("SQL_SERVER", SQL_SERVER, "localhost");
     ("SQL_DATABASE", SQL_DATABASE, "testdb");
     ("SQL_USERNAME", SQL_USERNAME, "testuser");
     ("SQL_PASSWORD", SQL_PASSWORD, "testpassword");
     ("SQL_DRIVER", SQL_DRIVER, "PostgreSQL Driver")]%string.
Proof.
  intros v. subst v.
  repeat (apply Forall_cons_2;
          [split; [intros value H; exact (os_getenv_set _ _ _ _ H)
                  |intros H; exact (os_getenv_unset _ _ _ H)]|]).
  apply Forall_nil_2.
Qed.

(** C8: two calls with the same [user_message], the same valves and the
    same remote side send the same request and end the same way, whatever
    their [model_id], [messages] and [body] are. *)
Theorem pipe_ignores_model_id_messages_body
    rt1 rt2 st1 st2 user_message
    model_id1 model_id2 messages1 messages2 body1 body2 :
  valves (self st1) = valves (self st2) ->
  (forall req, remote rt1 req = remote rt2 req) ->
  (pipe rt1 user_message model_id1 messages1 body1 st1).1
  = (pipe rt2 user_message model_id2 messages2 body2 st2).1
  /\ exists req,
       wire (pipe rt1 user_message model_id1 messages1 body1 st1).2
         = wire st1 ++ [req]
       /\ wire (pipe rt2 user_message model_id2 messages2 body2 st2).2
          = wire st2 ++ [req].
Proof.
  intros Hv Hremote.
  assert (Hreq : request_of st1 user_message = request_of st2 user_message).
  { unfold request_of. rewrite Hv. reflexivity. }
  split.
  - rewrite !pipe_value, Hreq, Hremote. reflexivity.
  - exists (request_of st1 user_message). split; [apply pipe_wire|].
    rewrite Hreq. apply pipe_wire.
Qed.

Lemma pipe_ignores_model_id_messages_body_witness :
  let rt := answering (Responded (response 200 "OK"
              (chat_completion (PyStr.lit "SELECT 1;")))) in
  let history := [PyDict {[PyStr.lit "content" := PyStr sample_message]}] in
  (valves (self sample_state) = valves (self sample_state)
   /\ (forall req, remote rt req = remote rt req))
  /\ (pipe rt sample_message (PyStr.lit "azure-text-to-sql") history ∅
        sample_state).1
     = (pipe rt sample_message (PyStr.lit "other-model") []
          {[PyStr.lit "stream" := PyBool true]} sample_state).1.
Proof.
  intros rt history.
  assert (H1 : valves (self sample_state) = valves (self sample_state))
    by reflexivity.
  assert (H2 : forall req, remote rt req = remote rt req)
    by (intros req; reflexivity).
  split; [auto|].
  exact (proj1 (pipe_ignores_model_id_messages_body rt rt
                  sample_state sample_state sample_message
                  (PyStr.lit "azure-text-to-sql") (PyStr.lit "other-model")
                  history [] ∅ {[PyStr.lit "stream" := PyBool true]}
                  H1 H2)).
Defined.

(** C9: [pipe] leaves the instance as it found it, whether it returns or
    raises: the valves, [type], [name], [pipelines] and [parameters] after
    the call are those before it. *)
Theorem pipe_mutates_no_local_state
    rt user_message model_id messages body st :
  let after := self (pipe rt user_message model_id messages body st).2 in
  after = self st
  /\ valves after = valves (self st)
  /\ type after = type (self st)
  /\ name after = name (self st)
  /\ pipelines after = pipelines (self st)
  /\ parameters after = parameters (self st).
Proof.
  assert (H : keeps_self (pipe rt user_message model_id messages body)).
  { unfold pipe. frame.
    intros e h. destruct e; intros [= <-]; apply keeps_self_ret. }
  intros after. subst after. rewrite (H st). repeat split.
Qed.

(** C10: whenever [pipe] returns, the value is a plain string: the
    stripped text found at [["choices"][0]["message"]["content"]] of the
    decoded response, or the request-failed marker followed by a
    description, or the missing-fields string.  It is never a generator
    or an iterator. *)
Theorem pipe_returns_only_strings
    rt user_message model_id messages body st v :
  (pipe rt user_message model_id messages body st).1 = Returns v ->
  exists s,
    v = ResStr s
    /\ ((exists r decoded text,
           remote rt (request_of st user_message) = Responded r
           /\ content r = inr decoded
           /\ first_choice_content decoded = Returns (PyStr text)
           /\ s = PyStr.strip text)
        \/ (exists description, s = api_request_failed ++ description)
        \/ s = missing_expected_fields).
Proof.
  rewrite pipe_value.
  destruct (remote rt (request_of st user_message)) as [kind msg|r] eqn:Hr.
  - intros [= <-]. eexists. split; [reflexivity|]. right. left.
    eexists. reflexivity.
  - unfold attempted, response_json.
    assert (Herr : forall e, concluded (Raises e) = Returns v ->
      exists s, v = ResStr s /\
        ((exists r0 decoded text,
           Responded r = Responded r0
           /\ content r0 = inr decoded
           /\ first_choice_content decoded = Returns (PyStr text)
           /\ s = PyStr.strip text)
        \/ (exists description, s = api_request_failed ++ description)
        \/ s = missing_expected_fields)).
    { intros e He. destruct e; cbn in He; try discriminate He;
        injection He as <-; eexists; (split; [reflexivity|]); right;
        [left; eexists; reflexivity | right; reflexivity]. }
    unfold mbind at 1, outcome_bind at 1.
    destruct (raise_for_status r) as [[]|e]; [|apply Herr].
    destruct (content r) as [complaint|decoded] eqn:Hc; [apply Herr|].
    unfold mbind at 1, outcome_bind at 1. unfold mbind at 1, outcome_bind at 1.
    destruct (first_choice_content decoded) as [found|e] eqn:Ht;
      [|apply Herr].
    destruct found as [| | | |text| |]; try apply Herr.
    intros [= <-]. eexists. split; [reflexivity|]. left.
    exists r, decoded, text. auto.
Qed.

Lemma pipe_returns_only_strings_witness :
  let rt := answering (Failed ConnectionError (PyStr.lit "Connection refused")) in
  let v := ResStr (api_request_failed ++ PyStr.lit "Connection refused") in
  (pipe rt sample_message (PyStr.lit "azure-text-to-sql") [] ∅
     sample_state).1 = Returns v
  /\ exists s, v = ResStr s.
Proof.
  intros rt v.
  assert (H : (pipe rt sample_message (PyStr.lit "azure-text-to-sql") [] ∅
                 sample_state).1 = Returns v) by (vm_compute; reflexivity).
  split; [exact H|].
  destruct (pipe_returns_only_strings rt sample_message
              (PyStr.lit "azure-text-to-sql") [] ∅ sample_state v H)
    as [s [Hs _]].
  exists s. exact Hs.
Defined.

(** * Further properties *)

(** ** Registration and the lifecycle hooks *)

(** X1: [set_pipelines] registers afresh.  Whatever [pipelines] and
    [parameters] held before, it replaces them by the same two lists, with
    one pipeline, so calling it again changes nothing; [type], [name] and
    the valves are left as they were. *)
Theorem set_pipelines_registers_afresh st1 st2 :
  let once := self (set_pipelines st1).2 in
  self (set_pipelines (set_pipelines st1).2).2 = once
  /\ type once = type (self st1)
  /\ name once = name (self st1)
  /\ valves once = valves (self st1)
  /\ pipelines once = pipelines (self (set_pipelines st2).2)
  /\ parameters once = parameters (self (set_pipelines st2).2)
  /\ length (pipelines once) = 1%nat.
Proof. cbv zeta. repeat split. Qed.

(** X2: on an instance that [__init__] built, [on_valves_updated] changes
    no attribute and sends nothing, and a call of [pipe] after it ends as
    it would have ended before it. *)
Theorem on_valves_updated_after_init
    rt environ st user_message model_id messages body :
  let ready := (__init__ environ st).2 in
  let updated := (on_valves_updated ready).2 in
  self updated = self ready
  /\ wire updated = wire ready
  /\ (pipe rt user_message model_id messages body updated).1
     = (pipe rt user_message model_id messages body ready).1.
Proof.
  intros ready updated.
  assert (Hself : self updated = self ready) by reflexivity.
  split; [exact Hself|]. split; [reflexivity|].
  rewrite !pipe_value. unfold request_of. rewrite Hself. reflexivity.
Qed.

(** X3: [__init__] reads no environment variable besides the ones whose
    names it announces in [parameters], and keeps nothing of what the
    instance held: two environments that agree on the announced names give
    the same instance. *)
Theorem init_reads_only_announced_names environ1 environ2 st1 st2 :
  (forall n, n ∈ announced_names (self (__init__ environ1 st1).2) ->
             environ1 !! n = environ2 !! n) ->
  self (__init__ environ1 st1).2 = self (__init__ environ2 st2).2.
Proof.
  intros Hsame.
  assert (Hget : forall n default,
            n ∈ announced_names (self (__init__ environ1 st1).2) ->
            os_getenv environ1 n default = os_getenv environ2 n default).
  { intros n default Hn. unfold os_getenv. rewrite (Hsame n Hn). reflexivity. }
  change (announced_names (self (__init__ environ1 st1).2))
    with [PyStr.lit "AZURE_OPENAI_API_KEY"; PyStr.lit "AZURE_OPENAI_ENDPOINT";
          PyStr.lit "AZURE_OPENAI_API_VERSION"; PyStr.lit "AZURE_OPENAI_MODEL";
          PyStr.lit "SQL_SERVER"; PyStr.lit "SQL_DATABASE";
          PyStr.lit "SQL_USERNAME"; PyStr.lit "SQL_PASSWORD";
          PyStr.lit "SQL_DRIVER"] in Hget.
  unfold __init__, set_pipelines, setattr, getattr, print,
    mbind, mret, Py_bind, Py_ret.
  cbn [self stdout wire type name valves pipelines parameters fst snd].
  f_equal. f_equal; apply Hget; set_solver.
Qed.

Lemma init_reads_only_announced_names_witness :
  let environ1 : gmap pystr pystr :=
    {[PyStr.lit "AZURE_OPENAI_MODEL" := PyStr.lit "gpt-4o";
      PyStr.lit "HOME" := PyStr.lit "/root"]} in
  let environ2 : gmap pystr pystr :=
    {[PyStr.lit "AZURE_OPENAI_MODEL" := PyStr.lit "gpt-4o"]} in
  self (__init__ environ1 sample_state).2
  = self (__init__ environ2 sample_state).2.
Proof.
  intros environ1 environ2.
  apply (init_reads_only_announced_names environ1 environ2
           sample_state sample_state).
  intros n Hn.
  change (announced_names (self (__init__ environ1 sample_state).2))
    with [PyStr.lit "AZURE_OPENAI_API_KEY"; PyStr.lit "AZURE_OPENAI_ENDPOINT";
          PyStr.lit "AZURE_OPENAI_API_VERSION"; PyStr.lit "AZURE_OPENAI_MODEL";
          PyStr.lit "SQL_SERVER"; PyStr.lit "SQL_DATABASE";
          PyStr.lit "SQL_USERNAME"; PyStr.lit "SQL_PASSWORD";
          PyStr.lit "SQL_DRIVER"] in Hn.
  repeat (apply elem_of_cons in Hn as [->|Hn]; [vm_compute; reflexivity|]).
  apply elem_of_nil in Hn. destruct Hn.
Defined.

(** Neither the constructor nor [set_pipelines] nor any of the three
    hooks sends a request, and [on_startup] and [on_shutdown] leave the
    instance as it was. *)
Theorem construction_and_hooks_send_nothing rt environ st :
  wire (__init__ environ st).2 = wire st
  /\ wire (set_pipelines st).2 = wire st
  /\ wire (on_valves_updated st).2 = wire st
  /\ wire (on_startup rt st).2 = wire st
  /\ wire (on_shutdown rt st).2 = wire st
  /\ self (on_startup rt st).2 = self st
  /\ self (on_shutdown rt st).2 = self st.
Proof. repeat split. Qed.

(** ** More on [str.strip] *)

Lemma lstrip_fixed (s : pystr) :
  (forall c, head s = Some c -> PyStr.isspace c = false) -> PyStr.lstrip s = s.
Proof.
  destruct s as [|c s]; [reflexivity|]. intros H. cbn.
  rewrite (H c eq_refl). reflexivity.
Qed.

Lemma rstrip_fixed (s : pystr) :
  (forall c, last s = Some c -> PyStr.isspace c = false) -> PyStr.rstrip s = s.
Proof.
  intros H. unfold PyStr.rstrip. rewrite lstrip_fixed.
  - apply reverse_involutive.
  - intros c Hc. apply H. rewrite <- head_reverse. exact Hc.
Qed.

Lemma strip_fixed (s : pystr) :
  (forall c, head s = Some c -> PyStr.isspace c = false) ->
  (forall c, last s = Some c -> PyStr.isspace c = false) ->
  PyStr.strip s = s.
Proof.
  intros Hh Hl. unfold PyStr.strip. rewrite (lstrip_fixed s Hh).
  apply rstrip_fixed, Hl.
Qed.

Lemma lstrip_blank (s : pystr) :
  Forall (fun c => PyStr.isspace c = true) s -> PyStr.lstrip s = [].
Proof.
  induction 1 as [|c s Hc _ IH]; [reflexivity|]. cbn. rewrite Hc. exact IH.
Qed.

Lemma strip_blank (s : pystr) :
  Forall (fun c => PyStr.isspace c = true) s -> PyStr.strip s = [].
Proof.
  intros H. unfold PyStr.strip. rewrite (lstrip_blank s H). reflexivity.
Qed.

(** ** More on [pipe] *)

(** What the [try] block evaluates to once the status check has passed
    and the body has decoded. *)
Lemma attempted_decoded r decoded :
  ~ 400 <= status_code r < 600 ->
  content r = inr decoded ->
  attempted (Responded r)
  = (text ← first_choice_content decoded; method_strip text).
Proof.
  intros Hs Hc. unfold attempted, raise_for_status, response_json.
  rewrite Hc.
  replace ((400 <=? status_code r) && (status_code r <? 500)) with false
    by lia.
  replace ((500 <=? status_code r) && (status_code r <? 600)) with false
    by lia.
  reflexivity.
Qed.



(** X5: [pipe] reads the first choice only.  When the status is not one
    from 400 to 599 and the decoded body is an object whose ["choices"]
    starts with an object holding ["message"]["content"] as a string, the
    result is that string stripped, whatever further choices and further
    keys the body has. *)
Theorem pipe_reads_first_choice_only
    rt user_message model_id messages body st
    r top first rest message text :
  remote rt (request_of st user_message) = Responded r ->
  ~ 400 <= status_code r < 600 ->
  content r = inr (PyDict top) ->
  top !! PyStr.lit "choices" = Some (PyList (PyDict first :: rest)) ->
  first !! PyStr.lit "message" = Some (PyDict message) ->
  message !! PyStr.lit "content" = Some (PyStr text) ->
  (pipe rt user_message model_id messages body st).1
  = Returns (ResStr (PyStr.strip text)).
Proof.
  intros Hr Hs Hc Htop Hfirst Hmessage.
  rewrite pipe_value, Hr, (attempted_decoded r _ Hs Hc).
  unfold first_choice_content, mbind, outcome_bind, getitem_str at 1.
  rewrite Htop. unfold getitem_int. rewrite index_first.
  unfold getitem_str at 1. rewrite Hfirst.
  unfold getitem_str. rewrite Hmessage. reflexivity.
Qed.

Lemma pipe_reads_first_choice_only_witness :
  let choice (s : pystr) : pyobj :=
    PyDict {[PyStr.lit "index" := PyInt 0;
             PyStr.lit "finish_reason" := PyStr (PyStr.lit "stop");
             PyStr.lit "message" :=
               PyDict {[PyStr.lit "role" := PyStr (PyStr.lit "assistant");
                        PyStr.lit "content" := PyStr s]}]} in
  let decoded :=
    PyDict {[PyStr.lit "id" := PyStr (PyStr.lit "chatcmpl-1");
             PyStr.lit "choices" :=
               PyList [choice (PyStr.lit " SELECT 1; ");
                       choice (PyStr.lit "SELECT 2;")]]} in
  let rt := answering (Responded (response 200 "OK" decoded)) in
  (pipe rt sample_message (PyStr.lit "azure-text-to-sql") [] ∅
     sample_state).1
  = Returns (ResStr (PyStr.lit "SELECT 1;")).
Proof.
  intros choice decoded rt.
  refine (pipe_reads_first_choice_only rt sample_message
            (PyStr.lit "azure-text-to-sql") [] ∅ sample_state
            (response 200 "OK" decoded) _ _ _ _ (PyStr.lit " SELECT 1; ")
            eq_refl _ eq_refl _ _ _).
  - cbn. lia.
  - vm_compute. reflexivity.
  - vm_compute. reflexivity.
  - vm_compute. reflexivity.
Defined.

(** X6: a completion text that neither starts nor ends with whitespace
    is returned unchanged. *)
Theorem pipe_returns_trimmed_text_unchanged
    rt user_message model_id messages body st r decoded text :
  remote rt (request_of st user_message) = Responded r ->
  ~ 400 <= status_code r < 600 ->
  content r = inr decoded ->
  first_choice_content decoded = Returns (PyStr text) ->
  (forall c, head text = Some c -> PyStr.isspace c = false) ->
  (forall c, last text = Some c -> PyStr.isspace c = false) ->
  (pipe rt user_message model_id messages body st).1
  = Returns (ResStr text).
Proof.
  intros Hr Hs Hc Htext Hhead Hlast.
  rewrite pipe_value, Hr, (attempted_decoded r _ Hs Hc), Htext.
  cbn. rewrite (strip_fixed text Hhead Hlast). reflexivity.
Qed.

Lemma pipe_returns_trimmed_text_unchanged_witness :
  let text := PyStr.lit "SELECT name FROM employees WHERE name LIKE 'M%';" in
  let r := response 200 "OK" (chat_completion text) in
  let rt := answering (Responded r) in
  (pipe rt sample_message (PyStr.lit "azure-text-to-sql") [] ∅
     sample_state).1
  = Returns (ResStr text).
Proof.
  intros text r rt.
  refine (pipe_returns_trimmed_text_unchanged rt sample_message
            (PyStr.lit "azure-text-to-sql") [] ∅ sample_state
            r (chat_completion text) text eq_refl _ eq_refl _ _ _).
  - cbn. lia.
  - vm_compute. reflexivity.
  - intros c [= <-]. reflexivity.
  - intros c [= <-]. reflexivity.
Defined.

(** X7: a completion text that is empty or all whitespace is returned as
    the empty string; it is not reported as an error. *)
Theorem pipe_returns_empty_for_blank_text
    rt user_message model_id messages body st r decoded text :
  remote rt (request_of st user_message) = Responded r ->
  ~ 400 <= status_code r < 600 ->
  content r = inr decoded ->
  first_choice_content decoded = Returns (PyStr text) ->
  Forall (fun c => PyStr.isspace c = true) text ->
  (pipe rt user_message model_id messages body st).1 = Returns (ResStr []).
Proof.
  intros Hr Hs Hc Htext Hblank.
  rewrite pipe_value, Hr, (attempted_decoded r _ Hs Hc), Htext.
  cbn. rewrite (strip_blank text Hblank). reflexivity.
Qed.

Lemma pipe_returns_empty_for_blank_text_witness :
  let r := response 200 "OK" (chat_completion []) in
  let rt := answering (Responded r) in
  (pipe rt sample_message (PyStr.lit "azure-text-to-sql") [] ∅
     sample_state).1
  = Returns (ResStr []).
Proof.
  intros r rt.
  refine (pipe_returns_empty_for_blank_text rt sample_message
            (PyStr.lit "azure-text-to-sql") [] ∅ sample_state
            r (chat_completion []) [] eq_refl _ eq_refl _ _).
  - cbn. lia.
  - vm_compute. reflexivity.
  - apply Forall_nil_2.
Defined.


(** ** Construction followed by a call *)

Ltac run_init :=
  unfold __init__, set_pipelines, setattr, getattr, print,
    mbind, mret, Py_bind, Py_ret;
  cbn [self stdout wire type name valves pipelines parameters fst snd
       AZURE_OPENAI_API_KEY AZURE_OPENAI_ENDPOINT
       AZURE_OPENAI_API_VERSION AZURE_OPENAI_MODEL].

(** X9: construction followed by a call.  When the four Azure variables
    are set in the environment, the request of [pipe] goes to the URL made
    of the endpoint, model and version set there, carries the key set
    there, and names that model in its body. *)
Theorem configured_endpoint_is_called
    rt environ st user_message model_id messages body
    endpoint deployment version key :
  environ !! PyStr.lit "AZURE_OPENAI_ENDPOINT" = Some endpoint ->
  environ !! PyStr.lit "AZURE_OPENAI_MODEL" = Some deployment ->
  environ !! PyStr.lit "AZURE_OPENAI_API_VERSION" = Some version ->
  environ !! PyStr.lit "AZURE_OPENAI_API_KEY" = Some key ->
  exists req,
    wire (pipe rt user_message model_id messages body
            (__init__ environ st).2).2 = wire st ++ [req]
    /\ url req = endpoint ++ PyStr.lit "/openai/deployments/" ++ deployment
                 ++ PyStr.lit "/chat/completions?api-version=" ++ version
    /\ headers req !! PyStr.lit "api-key" = Some key
    /\ getitem_str (json req) (PyStr.lit "model")
       = Returns (PyStr deployment).
Proof.
  intros He Hm Hv Hk.
  exists (request_of (__init__ environ st).2 user_message).
  split; [rewrite pipe_wire; reflexivity|].
  unfold request_of, outbound_request.
  cbn [url headers json]. run_init.
  rewrite (os_getenv_set _ _ _ _ He), (os_getenv_set _ _ _ _ Hm),
    (os_getenv_set _ _ _ _ Hv), (os_getenv_set _ _ _ _ Hk).
  split; [reflexivity|]. split; [apply lookup_insert_eq|].
  unfold getitem_str. rewrite lookup_insert_ne by discriminate.
  rewrite lookup_singleton_eq. reflexivity.
Qed.

Lemma configured_endpoint_is_called_witness :
  let environ : gmap pystr pystr :=
    {[PyStr.lit "AZURE_OPENAI_ENDPOINT" := PyStr.lit "https://example.openai.azure.com";
      PyStr.lit "AZURE_OPENAI_MODEL" := PyStr.lit "gpt-4o";
      PyStr.lit "AZURE_OPENAI_API_VERSION" := PyStr.lit "2024-06-01";
      PyStr.lit "AZURE_OPENAI_API_KEY" := PyStr.lit "secret"]} in
  exists req,
    wire (pipe (answering (Failed Timeout [])) sample_message
            (PyStr.lit "azure-text-to-sql") [] ∅
            (__init__ environ sample_state).2).2 = wire sample_state ++ [req]
    /\ url req
       = PyStr.lit "https://example.openai.azure.com/openai/deployments/gpt-4o/chat/completions?api-version=2024-06-01"
    /\ headers req !! PyStr.lit "api-key" = Some (PyStr.lit "secret")
    /\ getitem_str (json req) (PyStr.lit "model")
       = Returns (PyStr (PyStr.lit "gpt-4o")).
Proof.
  intros environ.
  refine (configured_endpoint_is_called (answering (Failed Timeout []))
            environ sample_state sample_message
            (PyStr.lit "azure-text-to-sql") [] ∅
            (PyStr.lit "https://example.openai.azure.com")
            (PyStr.lit "gpt-4o") (PyStr.lit "2024-06-01")
            (PyStr.lit "secret") _ _ _ _);
    vm_compute; reflexivity.
Defined.

(** X10: the SQL settings never reach the request.  Two environments
    that agree on the four Azure variables give, after construction, the
    same request and the same result of [pipe]. *)
Theorem sql_settings_never_reach_the_request
    rt environ1 environ2 st user_message model_id messages body :
  (forall n,
     n ∈ [PyStr.lit "AZURE_OPENAI_API_KEY"; PyStr.lit "AZURE_OPENAI_ENDPOINT";
          PyStr.lit "AZURE_OPENAI_API_VERSION"; PyStr.lit "AZURE_OPENAI_MODEL"] ->
     environ1 !! n = environ2 !! n) ->
  let run environ :=
    pipe rt user_message model_id messages body (__init__ environ st).2 in
  (run environ1).1 = (run environ2).1
  /\ wire (run environ1).2 = wire (run environ2).2.
Proof.
  intros Hsame run. subst run. cbv beta.
  assert (Hget : forall n default,
            n ∈ [PyStr.lit "AZURE_OPENAI_API_KEY"; PyStr.lit "AZURE_OPENAI_ENDPOINT";
                 PyStr.lit "AZURE_OPENAI_API_VERSION"; PyStr.lit "AZURE_OPENAI_MODEL"] ->
            os_getenv environ1 n default = os_getenv environ2 n default).
  { intros n default Hn. unfold os_getenv. rewrite (Hsame n Hn). reflexivity. }
  assert (Hreq : request_of (__init__ environ1 st).2 user_message
                 = request_of (__init__ environ2 st).2 user_message).
  { unfold request_of, outbound_request. run_init.
    rewrite !(Hget (PyStr.lit "AZURE_OPENAI_API_KEY")),
      !(Hget (PyStr.lit "AZURE_OPENAI_ENDPOINT")),
      !(Hget (PyStr.lit "AZURE_OPENAI_API_VERSION")),
      !(Hget (PyStr.lit "AZURE_OPENAI_MODEL")) by set_solver.
    reflexivity. }
  split.
  - rewrite !pipe_value, Hreq. reflexivity.
  - rewrite !pipe_wire, Hreq. reflexivity.
Qed.

Lemma sql_settings_never_reach_the_request_witness :
  let rt := answering (Responded (response 200 "OK"
              (chat_completion (PyStr.lit "SELECT 1;")))) in
  let environ1 : gmap pystr pystr :=
    {[PyStr.lit "SQL_SERVER" := PyStr.lit "db.internal";
      PyStr.lit "SQL_PASSWORD" := PyStr.lit "hunter2"]} in
  let environ2 : gmap pystr pystr := ∅ in
  (pipe rt sample_message (PyStr.lit "azure-text-to-sql") [] ∅
     (__init__ environ1 sample_state).2).1
  = (pipe rt sample_message (PyStr.lit "azure-text-to-sql") [] ∅
       (__init__ environ2 sample_state).2).1.
Proof.
  intros rt environ1 environ2.
  refine (proj1 (sql_settings_never_reach_the_request rt environ1 environ2
                   sample_state sample_message
                   (PyStr.lit "azure-text-to-sql") [] ∅ _)).
  intros n Hn.
  repeat (apply elem_of_cons in Hn as [->|Hn]; [vm_compute; reflexivity|]).
  apply elem_of_nil in Hn. destruct Hn.
Defined.

(** X11: the two kinds of failure can be told apart.  The string [pipe]
    returns for a failed request is never the string it returns for a
    body that lacks an expected field. *)
Theorem failure_kinds_are_told_apart
    rt1 rt2 st1 st2 user_message1 user_message2
    model_id1 model_id2 messages1 messages2 body1 body2 r decoded :
  request_failed (remote rt1 (request_of st1 user_message1)) ->
  remote rt2 (request_of st2 user_message2) = Responded r ->
  ~ 400 <= status_code r < 600 ->
  content r = inr decoded ->
  lacks_expected_field decoded ->
  (pipe rt1 user_message1 model_id1 messages1 body1 st1).1
  <> (pipe rt2 user_message2 model_id2 messages2 body2 st2).1.
Proof.
  intros Hfail Hr Hs Hc Hlack. rewrite !pipe_value, Hr.
  destruct (request_failed_raises _ Hfail) as [kind [d [-> _]]].
  rewrite (attempted_decoded r _ Hs Hc).
  destruct (lacks_expected_field_raises _ Hlack) as [key ->].
  cbn. intros H. injection H as H. discriminate H.
Qed.

Lemma failure_kinds_are_told_apart_witness :
  let rt1 := answering (Failed Timeout (PyStr.lit "timed out")) in
  let r := response 200 "OK" (PyDict ∅) in
  let rt2 := answering (Responded r) in
  (request_failed (remote rt1 (request_of sample_state sample_message))
   /\ lacks_expected_field (PyDict ∅))
  /\ (pipe rt1 sample_message (PyStr.lit "azure-text-to-sql") [] ∅
        sample_state).1
     <> (pipe rt2 sample_message (PyStr.lit "azure-text-to-sql") [] ∅
           sample_state).1.
Proof.
  intros rt1 r rt2.
  assert (H1 : request_failed
                 (remote rt1 (request_of sample_state sample_message)))
    by apply transport_error.
  assert (H2 : lacks_expected_field (PyDict ∅))
    by (apply no_choices; reflexivity).
  split; [auto|].
  refine (failure_kinds_are_told_apart rt1 rt2 sample_state sample_state
            sample_message sample_message
            (PyStr.lit "azure-text-to-sql") (PyStr.lit "azure-text-to-sql")
            [] [] ∅ ∅ r (PyDict ∅) H1 eq_refl _ eq_refl H2).
  cbn. lia.
Defined.

(** X12: when ["choices"] is an object instead of an array, [choices[0]]
    raises [KeyError] like a missing key does, and [pipe] returns the
    missing-fields string. *)
Theorem pipe_reports_choices_object
    rt user_message model_id messages body st r top inner :
  remote rt (request_of st user_message) = Responded r ->
  ~ 400 <= status_code r < 600 ->
  content r = inr (PyDict top) ->
  top !! PyStr.lit "choices" = Some (PyDict inner) ->
  (pipe rt user_message model_id messages body st).1
  = Returns (ResStr missing_expected_fields).
Proof.
  intros Hr Hs Hc Htop.
  rewrite pipe_value, Hr, (attempted_decoded r _ Hs Hc).
  unfold first_choice_content, mbind, outcome_bind, getitem_str at 1.
  rewrite Htop. reflexivity.
Qed.

Lemma pipe_reports_choices_object_witness :
  let decoded := PyDict {[PyStr.lit "choices" := PyDict ∅]} in
  let rt := answering (Responded (response 200 "OK" decoded)) in
  (pipe rt sample_message (PyStr.lit "azure-text-to-sql") [] ∅
     sample_state).1
  = Returns (ResStr missing_expected_fields).
Proof.
  intros decoded rt.
  refine (pipe_reports_choices_object rt sample_message
            (PyStr.lit "azure-text-to-sql") [] ∅ sample_state
            (response 200 "OK" decoded) _ ∅ eq_refl _ eq_refl _).
  - cbn. lia.
  - vm_compute. reflexivity.
Defined.

(** X13: when ["choices"] is an empty array, [pipe] catches nothing: the
    [IndexError] of [choices[0]] reaches the caller, for every
    configuration and every message. *)
Theorem pipe_raises_index_error
    rt user_message model_id messages body st r top :
  remote rt (request_of st user_message) = Responded r ->
  ~ 400 <= status_code r < 600 ->
  content r = inr (PyDict top) ->
  top !! PyStr.lit "choices" = Some (PyList []) ->
  (pipe rt user_message model_id messages body st).1 = Raises IndexError.
Proof.
  intros Hr Hs Hc Htop.
  rewrite pipe_value, Hr, (attempted_decoded r _ Hs Hc).
  unfold first_choice_content, mbind, outcome_bind, getitem_str at 1.
  rewrite Htop. reflexivity.
Qed.

Lemma pipe_raises_index_error_witness :
  let decoded := PyDict {[PyStr.lit "choices" := PyList []]} in
  let rt := answering (Responded (response 200 "OK" decoded)) in
  (pipe rt sample_message (PyStr.lit "azure-text-to-sql") [] ∅
     sample_state).1
  = Raises IndexError.
Proof.
  intros decoded rt.
  refine (pipe_raises_index_error rt sample_message
            (PyStr.lit "azure-text-to-sql") [] ∅ sample_state
            (response 200 "OK" decoded) _ eq_refl _ eq_refl _).
  - cbn. lia.
  - vm_compute. reflexivity.
Defined.

(** X14: when the ["content"] of the first choice is there but is not a
    string ([null], a number, an array, an object), [.strip()] raises
    [AttributeError] and [pipe] lets it reach the caller. *)
Theorem pipe_raises_attribute_error
    rt user_message model_id messages body st r decoded found :
  remote rt (request_of st user_message) = Responded r ->
  ~ 400 <= status_code r < 600 ->
  content r = inr decoded ->
  first_choice_content decoded = Returns found ->
  (forall text, found <> PyStr text) ->
  (pipe rt user_message model_id messages body st).1
  = Raises AttributeError.
Proof.
  intros Hr Hs Hc Hfound Hother.
  rewrite pipe_value, Hr, (attempted_decoded r _ Hs Hc), Hfound.
  destruct found as [| | | |text| |]; try reflexivity.
  destruct (Hother text eq_refl).
Qed.

Lemma pipe_raises_attribute_error_witness :
  let rt := answering (Responded
              (response 200 "OK" (chat_completion_of PyNone))) in
  (pipe rt sample_message (PyStr.lit "azure-text-to-sql") [] ∅
     sample_state).1
  = Raises AttributeError.
Proof.
  intros rt.
  refine (pipe_raises_attribute_error rt sample_message
            (PyStr.lit "azure-text-to-sql") [] ∅ sample_state
            (response 200 "OK" (chat_completion_of PyNone))
            (chat_completion_of PyNone) PyNone eq_refl _ eq_refl _ _).
  - cbn. lia.
  - vm_compute. reflexivity.
  - intros text. discriminate.
Defined.
